(** * Fyyur: a shallow embedding of [app.py] and [models.py]

    The development follows the layout of the application:

    - [Text]      strings, decimal rendering, the SQL [ILIKE] operator;
    - [Clock]     naive [datetime] values, their order and [strftime];
    - [Py]        the exception classes and results that may raise;
    - [Models]    the three mapped classes of [models.py];
    - [Storage]   the relational store and the constraints the schema of
                  [models.py] puts on written rows;
    - [Objects]   attribute lookup on model instances;
    - [Web]       request forms, template contexts, responses, and the
                  request monad (session state plus exceptions);
    - [Session]   [try]/[except]/[finally], [flash], the session calls
                  and the dispatch of a request;
    - [App]       the filter and the controllers of [app.py];
    - [Forms]     form classes after the specification;
    - [Areas], [Matching], [Frames]  the vocabulary of the statements
                  about listings, searches and untouched state;
    - [Sample]    data for the examples;
    - the properties of the filter and of the controllers. *)

From Stdlib Require Import List String Ascii Bool Arith ZArith Lia.
From Stdlib Require Import DecimalString Sorting.Sorted Permutation.
Import ListNotations.

Open Scope string_scope.
Open Scope Z_scope.

Set Implicit Arguments.

(* ------------------------------------------------------------------ *)
(** ** Text *)
(* ------------------------------------------------------------------ *)
Module Text.

(** [", ".join(parts)] *)
Fixpoint join (sep : string) (parts : list string) : string :=
  match parts with
  | [] => ""
  | [p] => p
  | p :: rest => p ++ sep ++ join sep rest
  end.

(** Decimal rendering of a natural number, as [str(n)] does. *)
Definition of_nat (n : nat) : string :=
  NilEmpty.string_of_uint (Nat.to_uint n).

(** Decimal rendering of an integer. *)
Definition of_Z (z : Z) : string :=
  match z with
  | Z0 => "0"
  | Zpos p => of_nat (Pos.to_nat p)
  | Zneg p => "-" ++ of_nat (Pos.to_nat p)
  end.

(** Zero padding on the left up to [width] characters ([%02d]). *)
Fixpoint zeros (k : nat) : string :=
  match k with
  | O => ""
  | S k' => "0" ++ zeros k'
  end.

Definition pad (width : nat) (n : nat) : string :=
  let s := of_nat n in
  zeros (width - String.length s) ++ s.

(** Reading an integer key written in decimal, as the database does
    when a textual parameter is compared with an [Integer] column. *)
Definition digit_of (c : ascii) : option Z :=
  let n := nat_of_ascii c in
  if (48 <=? n)%nat && (n <=? 57)%nat then Some (Z.of_nat (n - 48)) else None.

Fixpoint digits (acc : Z) (s : string) : option Z :=
  match s with
  | EmptyString => Some acc
  | String c rest =>
      match digit_of c with
      | Some d => digits (10 * acc + d) rest
      | None => None
      end
  end.

Definition to_Z (s : string) : option Z :=
  match s with
  | EmptyString => None
  | String "-" rest =>
      match rest with
      | EmptyString => None
      | _ => option_map Z.opp (digits 0 rest)
      end
  | _ => digits 0 s
  end.

(** ASCII case folding, used by [ILIKE]. *)
Definition lower_ascii (c : ascii) : ascii :=
  let n := nat_of_ascii c in
  if (65 <=? n)%nat && (n <=? 90)%nat then ascii_of_nat (n + 32) else c.

Fixpoint lower (s : string) : string :=
  match s with
  | EmptyString => EmptyString
  | String c rest => String (lower_ascii c) (lower rest)
  end.

(** Does the text hold a NUL character?  The database driver refuses
    to send such a text. *)
Fixpoint has_nul (s : string) : bool :=
  match s with
  | EmptyString => false
  | String c rest => Ascii.eqb c zero || has_nul rest
  end.

(** *** SQL [LIKE] patterns

    [%] matches any run of characters, [_] exactly one, and a
    backslash makes the next character literal.  A pattern that ends
    in a lone backslash is refused by the engine. *)
Inductive like_tok : Type :=
| LAny
| LOne
| LChar (c : ascii).

Fixpoint like_parse (p : string) : option (list like_tok) :=
  match p with
  | EmptyString => Some []
  | String c rest =>
      if Ascii.eqb c "\" then
        match rest with
        | EmptyString => None
        | String d rest' => option_map (cons (LChar d)) (like_parse rest')
        end
      else if Ascii.eqb c "%" then option_map (cons LAny) (like_parse rest)
      else if Ascii.eqb c "_" then option_map (cons LOne) (like_parse rest)
      else option_map (cons (LChar c)) (like_parse rest)
  end.

Fixpoint like_match (ts : list like_tok) (s : string) : bool :=
  match ts with
  | [] => match s with EmptyString => true | _ => false end
  | LAny :: ts' =>
      (fix any (s : string) : bool :=
         like_match ts' s
         || match s with
            | EmptyString => false
            | String _ s' => any s'
            end) s
  | LOne :: ts' =>
      match s with
      | EmptyString => false
      | String _ s' => like_match ts' s'
      end
  | LChar c :: ts' =>
      match s with
      | EmptyString => false
      | String d s' => Ascii.eqb c d && like_match ts' s'
      end
  end.

(** [column ILIKE pattern]: [None] when the engine refuses the pattern. *)
Definition ilike (value pattern : string) : option bool :=
  option_map (fun ts => like_match ts (lower value)) (like_parse (lower pattern)).

End Text.

(* ------------------------------------------------------------------ *)
(** ** Clock *)
(* ------------------------------------------------------------------ *)
Module Clock.

(** A naive [datetime.datetime]: its fields, compared field by field. *)
Record datetime : Type := mk_datetime {
  year : nat;
  month : nat;
  day : nat;
  hour : nat;
  minute : nat;
  second : nat;
  microsecond : nat
}.

Definition fields (d : datetime) : list nat :=
  [year d; month d; day d; hour d; minute d; second d; microsecond d].

Fixpoint lex_compare (a b : list nat) : comparison :=
  match a, b with
  | [], [] => Eq
  | [], _ :: _ => Lt
  | _ :: _, [] => Gt
  | x :: a', y :: b' =>
      match Nat.compare x y with
      | Eq => lex_compare a' b'
      | c => c
      end
  end.

Definition compare (a b : datetime) : comparison :=
  lex_compare (fields a) (fields b).

(** [a > b] *)
Definition gtb (a b : datetime) : bool :=
  match compare a b with Gt => true | _ => false end.

(** [a <= b] *)
Definition leb (a b : datetime) : bool :=
  match compare a b with Gt => false | _ => true end.

(** [d.strftime("%m/%d/%Y, %H:%M")] *)
Definition strftime (d : datetime) : string :=
  Text.pad 2 (month d) ++ "/" ++ Text.pad 2 (day d) ++ "/" ++ Text.pad 4 (year d)
  ++ ", " ++ Text.pad 2 (hour d) ++ ":" ++ Text.pad 2 (minute d).

End Clock.

(* ------------------------------------------------------------------ *)
(** ** Python exceptions *)
(* ------------------------------------------------------------------ *)
Module Py.

(** The exception classes that the controllers and the storage layer
    can raise. *)
Inductive Exn : Type :=
| ValueError            (* builtin; raised by the driver for a NUL in a text *)
| AttributeError        (* builtin; a missing attribute *)
| BadRequestKeyError    (* werkzeug: [request.form[k]] for an absent [k] *)
| IntegrityError        (* sqlalchemy.exc: NOT NULL, foreign key *)
| DataError             (* sqlalchemy.exc: value too long, malformed literal *)
| TypeError.            (* builtin; calling what is not callable *)

(** [except ValueError] *)
Definition is_ValueError (e : Exn) : bool :=
  match e with ValueError => true | _ => false end.

(** [except Exception] *)
Definition is_Exception (e : Exn) : bool := true.

(** A computation that returns or raises. *)
Definition result (A : Type) : Type := (Exn + A)%type.

Definition ok {A} (a : A) : result A := inr a.
Definition raise {A} (e : Exn) : result A := inl e.

Definition rbind {A B} (r : result A) (k : A -> result B) : result B :=
  match r with
  | inl e => inl e
  | inr a => k a
  end.

End Py.

(* ------------------------------------------------------------------ *)
(** ** Models ([models.py]) *)
(* ------------------------------------------------------------------ *)
Module Models.
Import Clock.

(** A row of table [venues]: the nullable columns are options. *)
Record Venue : Type := mk_Venue {
  venue_id_of : Z;                              (* id *)
  venue_name : string;                          (* name, String(120) *)
  venue_genres : list string;                   (* genres, ARRAY(String(120)) *)
  venue_address : string;                       (* address, String(120) *)
  venue_city : string;                          (* city, String(120) *)
  venue_state : string;                         (* state, String(120) *)
  venue_phone : option string;                  (* phone, String(120) *)
  venue_website : option string;                (* website, String(500) *)
  venue_facebook_link : option string;          (* facebook_link, String(500) *)
  venue_seeking_talent : bool;                  (* seeking_talent *)
  venue_seeking_description : option string;    (* seeking_description, String(500) *)
  venue_image_link : option string              (* image_link, String(500) *)
}.

(** A row of table [artists]. *)
Record Artist : Type := mk_Artist {
  artist_id_of : Z;
  artist_name : string;
  artist_genres : list string;
  artist_city : string;
  artist_state : string;
  artist_phone : option string;
  artist_website : option string;
  artist_facebook_link : option string;
  artist_seeking_venue : bool;
  artist_seeking_description : option string;
  artist_image_link : option string
}.

(** A row of table [Show]. *)
Record Show : Type := mk_Show {
  show_id_of : Z;
  show_venue_id : Z;
  show_artist_id : Z;
  show_start_time : datetime
}.

(** The keyword arguments of [Venue(...)], [Artist(...)] and
    [Show(...)]: a new object has no id yet, and any attribute may be
    [None]. *)
Record VenueObj : Type := mk_VenueObj {
  vo_name : option string;
  vo_city : option string;
  vo_state : option string;
  vo_address : option string;
  vo_phone : option string;
  vo_genres : list string;
  vo_facebook_link : option string;
  vo_image_link : option string;
  vo_website : option string;
  vo_seeking_talent : bool;
  vo_seeking_description : option string
}.

Record ArtistObj : Type := mk_ArtistObj {
  ao_name : option string;
  ao_city : option string;
  ao_state : option string;
  ao_phone : option string;
  ao_genres : list string;
  ao_facebook_link : option string;
  ao_image_link : option string;
  ao_website : option string;
  ao_seeking_venue : bool;
  ao_seeking_description : option string
}.

Record ShowObj : Type := mk_ShowObj {
  so_artist_id : option Z;
  so_venue_id : option Z;
  so_start_time : option datetime
}.

Inductive NewObject : Type :=
| NewVenue (o : VenueObj)
| NewArtist (o : ArtistObj)
| NewShow (o : ShowObj).

(** Decidable equality of rows: the unit of work compares a loaded
    object with its stored row to find what to update. *)
Definition datetime_eq_dec (a b : datetime) : {a = b} + {a <> b}.
Proof. decide equality; apply Nat.eq_dec. Defined.

Definition opt_string_eq_dec (a b : option string) : {a = b} + {a <> b}.
Proof. decide equality; apply string_dec. Defined.

Definition Venue_eq_dec (a b : Venue) : {a = b} + {a <> b}.
Proof.
  decide equality;
    try apply opt_string_eq_dec; try apply string_dec; try apply Bool.bool_dec;
    try apply Z.eq_dec; apply (list_eq_dec string_dec).
Defined.

Definition Artist_eq_dec (a b : Artist) : {a = b} + {a <> b}.
Proof.
  decide equality;
    try apply opt_string_eq_dec; try apply string_dec; try apply Bool.bool_dec;
    try apply Z.eq_dec; apply (list_eq_dec string_dec).
Defined.

End Models.

(* ------------------------------------------------------------------ *)
(** ** Storage: the relational store behind the session *)
(* ------------------------------------------------------------------ *)
Module Storage.
Import Clock Models Py.

(** The rows of the three tables, in the order a full scan returns
    them. *)
Record Store : Type := mk_Store {
  venues : list Venue;
  artists : list Artist;
  shows : list Show
}.

(** The id sequences; they stand outside transactions. *)
Record Sequences : Type := mk_Sequences {
  venues_id_seq : Z;
  artists_id_seq : Z;
  show_id_seq : Z
}.

(** [db.session.get(Venue, id)] and friends: the row with that
    primary key, if any. *)
Definition get_venue (st : Store) (id : Z) : option Venue :=
  find (fun v => venue_id_of v =? id) (venues st).

Definition get_artist (st : Store) (id : Z) : option Artist :=
  find (fun a => artist_id_of a =? id) (artists st).

(** The relationships [Venue.shows] and [Artist.shows]. *)
Definition venue_shows (st : Store) (v : Venue) : list Show :=
  filter (fun s => show_venue_id s =? venue_id_of v) (shows st).

Definition artist_shows (st : Store) (a : Artist) : list Show :=
  filter (fun s => show_artist_id s =? artist_id_of a) (shows st).

(** *** What the driver and the engine check on a written row *)

(** The driver refuses a text parameter with a NUL in it
    ([ValueError]) before any statement is sent. *)
Definition opt_has_nul (o : option string) : bool :=
  match o with Some s => Text.has_nul s | None => false end.

(** [String(n)]: at most [n] characters. *)
Definition fits (n : nat) (s : string) : bool := (String.length s <=? n)%nat.

Definition opt_fits (n : nat) (o : option string) : bool :=
  match o with Some s => fits n s | None => true end.

(** [nullable=False] *)
Definition not_null {A} (o : option A) : result A :=
  match o with Some a => ok a | None => raise IntegrityError end.

Definition venue_obj_texts (o : VenueObj) : list (option string) :=
  [vo_name o; vo_address o; vo_city o; vo_state o; vo_phone o; vo_website o;
   vo_facebook_link o; vo_seeking_description o; vo_image_link o]
  ++ map Some (vo_genres o).

Definition venue_obj_fits (o : VenueObj) : bool :=
  opt_fits 120 (vo_name o) && forallb (fits 120) (vo_genres o)
  && opt_fits 120 (vo_address o) && opt_fits 120 (vo_city o)
  && opt_fits 120 (vo_state o) && opt_fits 120 (vo_phone o)
  && opt_fits 500 (vo_website o) && opt_fits 500 (vo_facebook_link o)
  && opt_fits 500 (vo_seeking_description o) && opt_fits 500 (vo_image_link o).

Definition artist_obj_texts (o : ArtistObj) : list (option string) :=
  [ao_name o; ao_city o; ao_state o; ao_phone o; ao_website o;
   ao_facebook_link o; ao_seeking_description o; ao_image_link o]
  ++ map Some (ao_genres o).

Definition artist_obj_fits (o : ArtistObj) : bool :=
  opt_fits 120 (ao_name o) && forallb (fits 120) (ao_genres o)
  && opt_fits 120 (ao_city o) && opt_fits 120 (ao_state o)
  && opt_fits 120 (ao_phone o)
  && opt_fits 500 (ao_website o) && opt_fits 500 (ao_facebook_link o)
  && opt_fits 500 (ao_seeking_description o) && opt_fits 500 (ao_image_link o).

(** The object of a stored row, as the session hands it out. *)
Definition obj_of_venue (v : Venue) : VenueObj :=
  mk_VenueObj (Some (venue_name v)) (Some (venue_city v)) (Some (venue_state v))
    (Some (venue_address v)) (venue_phone v) (venue_genres v)
    (venue_facebook_link v) (venue_image_link v) (venue_website v)
    (venue_seeking_talent v) (venue_seeking_description v).

Definition obj_of_artist (a : Artist) : ArtistObj :=
  mk_ArtistObj (Some (artist_name a)) (Some (artist_city a)) (Some (artist_state a))
    (artist_phone a) (artist_genres a) (artist_facebook_link a)
    (artist_image_link a) (artist_website a) (artist_seeking_venue a)
    (artist_seeking_description a).

(** The row an INSERT of a new object makes under a given id, or the
    fault of the engine: a text too long for its column
    ([DataError]), then a NULL in a [nullable=False] column
    ([IntegrityError]). *)
Definition venue_row (id : Z) (o : VenueObj) : result Venue :=
  if negb (venue_obj_fits o) then raise DataError else
  rbind (not_null (vo_name o)) (fun name =>
  rbind (not_null (vo_address o)) (fun address =>
  rbind (not_null (vo_city o)) (fun city =>
  rbind (not_null (vo_state o)) (fun state =>
  ok (mk_Venue id name (vo_genres o) address city state (vo_phone o)
        (vo_website o) (vo_facebook_link o) (vo_seeking_talent o)
        (vo_seeking_description o) (vo_image_link o)))))).

Definition artist_row (id : Z) (o : ArtistObj) : result Artist :=
  if negb (artist_obj_fits o) then raise DataError else
  rbind (not_null (ao_name o)) (fun name =>
  rbind (not_null (ao_city o)) (fun city =>
  rbind (not_null (ao_state o)) (fun state =>
  ok (mk_Artist id name (ao_genres o) city state (ao_phone o)
        (ao_website o) (ao_facebook_link o) (ao_seeking_venue o)
        (ao_seeking_description o) (ao_image_link o))))).

(** A [Show] row needs its three columns, and both foreign keys must
    name a stored row.  ([models.py] writes the targets as [venue.id]
    and [artist.id]; they are read as the keys of the tables of [Venue]
    and [Artist].) *)
Definition show_row (st : Store) (id : Z) (o : ShowObj) : result Show :=
  rbind (not_null (so_venue_id o)) (fun vid =>
  rbind (not_null (so_artist_id o)) (fun aid =>
  rbind (not_null (so_start_time o)) (fun t =>
  match get_venue st vid, get_artist st aid with
  | Some _, Some _ => ok (mk_Show id vid aid t)
  | _, _ => raise IntegrityError
  end))).

End Storage.

(* ------------------------------------------------------------------ *)
(** ** Objects: attribute lookup on model instances *)
(* ------------------------------------------------------------------ *)
Module Objects.
Import Clock Models Storage Py.

(** What an attribute of a model instance can hold. *)
Inductive Value : Type :=
| VNone
| VInt (z : Z)
| VText (s : string)
| VFlag (b : bool)
| VTexts (l : list string)
| VTime (d : datetime)
| VVenue (v : Venue)
| VArtist (a : Artist)
| VShow (s : Show)
| VShows (l : list Show).

Definition opt_text (o : option string) : Value :=
  match o with Some s => VText s | None => VNone end.

(** The attributes that class [Venue] of [models.py] declares: its
    columns and the relationship [shows]. *)
Definition venue_attr (st : Store) (v : Venue) (name : string) : option Value :=
  if (name =? "id")%string then Some (VInt (venue_id_of v))
  else if (name =? "name")%string then Some (VText (venue_name v))
  else if (name =? "genres")%string then Some (VTexts (venue_genres v))
  else if (name =? "address")%string then Some (VText (venue_address v))
  else if (name =? "city")%string then Some (VText (venue_city v))
  else if (name =? "state")%string then Some (VText (venue_state v))
  else if (name =? "phone")%string then Some (opt_text (venue_phone v))
  else if (name =? "website")%string then Some (opt_text (venue_website v))
  else if (name =? "facebook_link")%string then Some (opt_text (venue_facebook_link v))
  else if (name =? "seeking_talent")%string then Some (VFlag (venue_seeking_talent v))
  else if (name =? "seeking_description")%string then Some (opt_text (venue_seeking_description v))
  else if (name =? "image_link")%string then Some (opt_text (venue_image_link v))
  else if (name =? "shows")%string then Some (VShows (venue_shows st v))
  else None.

(** Class [Artist]: its columns and the relationship [shows]. *)
Definition artist_attr (st : Store) (a : Artist) (name : string) : option Value :=
  if (name =? "id")%string then Some (VInt (artist_id_of a))
  else if (name =? "name")%string then Some (VText (artist_name a))
  else if (name =? "genres")%string then Some (VTexts (artist_genres a))
  else if (name =? "city")%string then Some (VText (artist_city a))
  else if (name =? "state")%string then Some (VText (artist_state a))
  else if (name =? "phone")%string then Some (opt_text (artist_phone a))
  else if (name =? "website")%string then Some (opt_text (artist_website a))
  else if (name =? "facebook_link")%string then Some (opt_text (artist_facebook_link a))
  else if (name =? "seeking_venue")%string then Some (VFlag (artist_seeking_venue a))
  else if (name =? "seeking_description")%string then Some (opt_text (artist_seeking_description a))
  else if (name =? "image_link")%string then Some (opt_text (artist_image_link a))
  else if (name =? "shows")%string then Some (VShows (artist_shows st a))
  else None.

(** Class [Show]: its columns, and the two attributes that the
    relationships of [Venue] and [Artist] add to it through
    [backref="venue"] and [backref="artist"]. *)
Definition show_attr (st : Store) (s : Show) (name : string) : option Value :=
  if (name =? "id")%string then Some (VInt (show_id_of s))
  else if (name =? "venue_id")%string then Some (VInt (show_venue_id s))
  else if (name =? "artist_id")%string then Some (VInt (show_artist_id s))
  else if (name =? "start_time")%string then Some (VTime (show_start_time s))
  else if (name =? "venue")%string then
    Some (match get_venue st (show_venue_id s) with Some v => VVenue v | None => VNone end)
  else if (name =? "artist")%string then
    Some (match get_artist st (show_artist_id s) with Some a => VArtist a | None => VNone end)
  else None.

(** [obj.name]: the attribute, or [AttributeError].  Only the
    attributes that [models.py] declares are looked up; [None] and the
    plain values have none of them. *)
Definition getattr (st : Store) (obj : Value) (name : string) : result Value :=
  let found :=
    match obj with
    | VVenue v => venue_attr st v name
    | VArtist a => artist_attr st a name
    | VShow s => show_attr st s name
    | _ => None
    end in
  match found with
  | Some v => ok v
  | None => raise AttributeError
  end.

End Objects.

(* ------------------------------------------------------------------ *)
(** ** Web: forms, responses and the request monad *)
(* ------------------------------------------------------------------ *)
Module Web.
Import Clock Models Storage Py Objects.

(** *** [request.form] *)

(** The submitted fields in order; a key may occur several times. *)
Definition FormData : Type := list (string * string).

(** [request.form.get(k)] *)
Definition form_get (k : string) (f : FormData) : option string :=
  option_map snd (find (fun kv => (fst kv =? k)%string) f).

(** [request.form.getlist(k)] *)
Definition form_getlist (k : string) (f : FormData) : list string :=
  map snd (filter (fun kv => (fst kv =? k)%string) f).

(** [k in request.form] *)
Definition form_mem (k : string) (f : FormData) : bool :=
  existsb (fun kv => (fst kv =? k)%string) f.

(** [form.errors]: the fields that failed with their messages, in
    the order of the fields. *)
Definition FormErrors : Type := list (string * list string).

(** A form class of [forms.py], as the controllers use it:
    [validate()], [errors], and the typed [data] of the fields. *)
Record FormClass (D : Type) : Type := mk_FormClass {
  validate : FormData -> bool;
  errors : FormData -> FormErrors;
  data : FormData -> D
}.

(** The fields the controllers read from each form. *)
Record VenueFields : Type := mk_VenueFields {
  vf_name : option string;
  vf_city : option string;
  vf_state : option string;
  vf_address : option string;
  vf_phone : option string;
  vf_genres : list string;
  vf_facebook_link : option string;
  vf_image_link : option string;
  vf_website_link : option string;
  vf_seeking_talent : bool;
  vf_seeking_description : option string
}.

Record ArtistFields : Type := mk_ArtistFields {
  af_name : option string;
  af_city : option string;
  af_state : option string;
  af_phone : option string;
  af_genres : list string;
  af_facebook_link : option string;
  af_image_link : option string;
  af_website_link : option string;
  af_seeking_venue : bool;
  af_seeking_description : option string
}.

Record ShowFields : Type := mk_ShowFields {
  sf_artist_id : option Z;
  sf_venue_id : option Z;
  sf_start_time : option datetime
}.

(** *** What a controller hands to a template *)

Record Entry : Type := mk_Entry {
  entry_id : Z;
  entry_name : string;
  entry_num_upcoming_shows : nat
}.

Record Area : Type := mk_Area {
  area_city : string;
  area_state : string;
  area_venues : list Entry
}.

Record SearchResults : Type := mk_SearchResults {
  results_count : nat;
  results_data : list Entry
}.

(** An item of [past_shows] and [upcoming_shows] on a venue page. *)
Record VenueShow : Type := mk_VenueShow {
  vs_artist_id : Z;
  vs_artist_name : Value;
  vs_artist_image_link : Value;
  vs_start_time : string
}.

(** The same on an artist page. *)
Record ArtistShow : Type := mk_ArtistShow {
  as_venue_id : Z;
  as_venue_name : Value;
  as_venue_image_link : Value;
  as_start_time : string
}.

(** [vars(venue)] with the four computed keys. *)
Record VenueDetail : Type := mk_VenueDetail {
  vd_venue : Venue;
  vd_past_shows : list VenueShow;
  vd_upcoming_shows : list VenueShow;
  vd_past_shows_count : nat;
  vd_upcoming_shows_count : nat
}.

Record ArtistDetail : Type := mk_ArtistDetail {
  ad_artist : Artist;
  ad_past_shows : list ArtistShow;
  ad_upcoming_shows : list ArtistShow;
  ad_past_shows_count : nat;
  ad_upcoming_shows_count : nat
}.

Record ShowListing : Type := mk_ShowListing {
  sl_venue_id : Z;
  sl_venue_name : string;
  sl_artist_id : Z;
  sl_artist_name : string;
  sl_artist_image_link : option string;
  sl_start_time : string
}.

(** A form object made with no submitted data: [VenueForm()],
    [ArtistForm()], [ShowForm()]. *)
Inductive BlankForm : Type :=
| BlankVenueForm
| BlankArtistForm
| BlankShowForm.

Inductive Context : Type :=
| NoContext
| AreasCtx (areas : list Area)
| SearchCtx (results : SearchResults) (search_term : string)
| VenueCtx (venue : VenueDetail)
| ArtistCtx (artist : ArtistDetail)
| ShowsCtx (shows : list ShowListing)
| FormCtx (form : BlankForm).

Inductive Response : Type :=
| Rendered (template : string) (ctx : Context) (status : nat)
| Redirected (endpoint : string) (id : Z)
| Aborted (status : nat).

(** *** The session and the request monad *)

Inductive SessionCall : Type :=
| CallAdd
| CallCommit
| CallRollback
| CallClose.

(** The state a request runs in. *)
Record World : Type := mk_World {
  committed : Store;          (* the rows in the database *)
  sequences : Sequences;      (* its id sequences *)
  view : Store;               (* the rows as the open session holds them *)
  added : list NewObject;     (* [session.add]ed, not flushed yet *)
  flashes : list string;      (* [flash]ed messages, oldest first *)
  calls : list SessionCall    (* the calls made on the session, oldest first *)
}.

Definition M (A : Type) : Type := World -> result A * World.

Definition ret {A} (a : A) : M A := fun w => (ok a, w).

Definition throw {A} (e : Exn) : M A := fun w => (raise e, w).

Definition bind {A B} (m : M A) (k : A -> M B) : M B :=
  fun w =>
    match m w with
    | (inl e, w') => (inl e, w')
    | (inr a, w') => k a w'
    end.

Definition lift {A} (r : result A) : M A := fun w => (r, w).

Definition gets {A} (f : World -> A) : M A := fun w => (ok (f w), w).

Definition modify (f : World -> World) : M unit := fun w => (ok tt, f w).

End Web.

Declare Scope request_scope.
Delimit Scope request_scope with request.
Notation "x <- m ;; k" := (Web.bind m (fun x => k))
  (at level 100, m at next level, right associativity) : request_scope.
Notation "m ;; k" := (Web.bind m (fun _ => k))
  (at level 100, right associativity) : request_scope.

Module Session.
Import Clock Models Storage Py Objects Web.
Local Open Scope request_scope.

(** [try: body / except <catches>: handler / finally: final].  The
    [finally] clause runs on every path; an exception that no clause
    catches goes on after it. *)
Definition try_except_finally {A} (body : M A) (catches : Exn -> bool)
    (handler : Exn -> M A) (final : M unit) : M A :=
  fun w =>
    let '(r1, w1) := body w in
    let '(r2, w2) :=
      match r1 with
      | inl e => if catches e then handler e w1 else (inl e, w1)
      | inr a => (inr a, w1)
      end in
    match final w2 with
    | (inl e, w3) => (inl e, w3)
    | (inr _, w3) => (r2, w3)
    end.

(** [request.form[k]] *)
Definition form_item (k : string) (f : FormData) : M string :=
  match form_get k f with
  | Some v => ret v
  | None => throw BadRequestKeyError
  end.

(** [flash(message)] *)
Definition flash (message : string) : M unit :=
  modify (fun w => mk_World (committed w) (sequences w) (view w) (added w)
                     (flashes w ++ [message]) (calls w)).

Definition log (c : SessionCall) (w : World) : World :=
  mk_World (committed w) (sequences w) (view w) (added w) (flashes w) (calls w ++ [c]).

(** [db.session.get(Venue, id)], [db.session.get(Artist, id)] *)
Definition session_get_venue (id : Z) : M (option Venue) :=
  gets (fun w => get_venue (view w) id).

Definition session_get_artist (id : Z) : M (option Artist) :=
  gets (fun w => get_artist (view w) id).



(** [db.session.add(obj)] *)
Definition session_add (o : NewObject) : M unit :=
  modify (fun w => log CallAdd
    (mk_World (committed w) (sequences w) (view w) (added w ++ [o]) (flashes w) (calls w))).

(** *** Flushing *)

(** A written row goes through the driver (no NUL in a text) and then
    through the column types. *)
Definition check_update (texts : list (option string)) (fit : bool) : result unit :=
  if existsb opt_has_nul texts then raise ValueError
  else if negb fit then raise DataError
  else ok tt.

Fixpoint check_all {A} (chk : A -> result unit) (l : list A) : result unit :=
  match l with
  | [] => ok tt
  | a :: rest => rbind (chk a) (fun _ => check_all chk rest)
  end.

(** The loaded rows whose attributes differ from the stored ones:
    the session holds one object for each row it has loaded. *)
Definition changed {A} (eq_dec : forall a b : A, {a = b} + {a <> b})
    (loaded stored : list A) : list A :=
  map fst (filter (fun p => if eq_dec (fst p) (snd p) then false else true)
             (combine loaded stored)).

Definition changed_venues (w : World) : list Venue :=
  changed Venue_eq_dec (venues (view w)) (venues (committed w)).

Definition changed_artists (w : World) : list Artist :=
  changed Artist_eq_dec (artists (view w)) (artists (committed w)).

Definition flush_updates (w : World) : result unit :=
  rbind (check_all (fun v => check_update (venue_obj_texts (obj_of_venue v))
                               (venue_obj_fits (obj_of_venue v))) (changed_venues w))
    (fun _ =>
       check_all (fun a => check_update (artist_obj_texts (obj_of_artist a))
                             (artist_obj_fits (obj_of_artist a))) (changed_artists w)).

(** The INSERT of one new object: the driver first, then the engine
    draws the id from the sequence and checks the row. *)
Definition insert (o : NewObject) (sq : Sequences) (vw : Store) : result Store * Sequences :=
  match o with
  | NewVenue vo =>
      if existsb opt_has_nul (venue_obj_texts vo) then (raise ValueError, sq)
      else
        (rbind (venue_row (venues_id_seq sq) vo) (fun row =>
           ok (mk_Store (venues vw ++ [row]) (artists vw) (shows vw))),
         mk_Sequences (venues_id_seq sq + 1) (artists_id_seq sq) (show_id_seq sq))
  | NewArtist ao =>
      if existsb opt_has_nul (artist_obj_texts ao) then (raise ValueError, sq)
      else
        (rbind (artist_row (artists_id_seq sq) ao) (fun row =>
           ok (mk_Store (venues vw) (artists vw ++ [row]) (shows vw))),
         mk_Sequences (venues_id_seq sq) (artists_id_seq sq + 1) (show_id_seq sq))
  | NewShow so =>
      (rbind (show_row vw (show_id_seq sq) so) (fun row =>
         ok (mk_Store (venues vw) (artists vw) (shows vw ++ [row]))),
       mk_Sequences (venues_id_seq sq) (artists_id_seq sq) (show_id_seq sq + 1))
  end.

Fixpoint flush_inserts (l : list NewObject) (sq : Sequences) (vw : Store)
    : result Store * Sequences :=
  match l with
  | [] => (ok vw, sq)
  | o :: rest =>
      match insert o sq vw with
      | (inl e, sq') => (inl e, sq')
      | (inr vw', sq') => flush_inserts rest sq' vw'
      end
  end.

(** [db.session.commit()]: flush, then make the session's rows the
    stored ones.  When the flush raises nothing is stored. *)
Definition session_commit : M unit :=
  fun w0 =>
    let w := log CallCommit w0 in
    match flush_updates w with
    | inl e => (inl e, w)
    | inr _ =>
        match flush_inserts (added w) (sequences w) (view w) with
        | (inl e, sq) =>
            (inl e, mk_World (committed w) sq (view w) (added w) (flashes w) (calls w))
        | (inr vw, sq) =>
            (ok tt, mk_World vw sq vw [] (flashes w) (calls w))
        end
    end.

(** [db.session.rollback()]: the session forgets what it has not
    committed. *)
Definition session_rollback : M unit :=
  modify (fun w => log CallRollback
    (mk_World (committed w) (sequences w) (committed w) [] (flashes w) (calls w))).

(** [db.session.close()] *)
Definition session_close : M unit :=
  modify (fun w => log CallClose
    (mk_World (committed w) (sequences w) (committed w) [] (flashes w) (calls w))).

(** *** Running a controller on a request *)

Record Outcome : Type := mk_Outcome {
  out_store : Store;
  out_sequences : Sequences;
  out_flashes : list string;
  out_calls : list SessionCall;
  out_response : Response
}.

Definition start (st : Store) (sq : Sequences) : World :=
  mk_World st sq st [] [] [].

(** An exception that leaves the controller: an HTTP exception is its
    own response, anything else goes to the 500 handler
    ([server_error]). *)
Definition uncaught (e : Exn) : Response :=
  match e with
  | BadRequestKeyError => Aborted 400
  | _ => Rendered "errors/500.html" NoContext 500
  end.

Definition run (h : M Response) (st : Store) (sq : Sequences) : Outcome :=
  let '(r, w) := h (start st sq) in
  mk_Outcome (committed w) (sequences w) (flashes w) (calls w)
    (match r with
     | inr resp => resp
     | inl e => uncaught e
     end).

End Session.

(* ------------------------------------------------------------------ *)
(** ** App: the filter and the controllers of [app.py] *)
(* ------------------------------------------------------------------ *)
Module App.
Import Clock Models Storage Py Objects Web Session.
Local Open Scope request_scope.

(** *** Filters *)
Section Filters.
(** The two library calls of the filter. *)
Variable Date : Type.
Variable dateutil_parse : string -> result Date.
Variable babel_format_datetime : Date -> string -> string -> string.

(** [format_datetime(value, format="medium")]; [None] is the call
    without a [format]. *)
Definition format_datetime (value : string) (format : option string) : result string :=
  let format := match format with Some f => f | None => "medium" end in
  rbind (dateutil_parse value) (fun date =>
  let format :=
    if (format =? "full")%string then "EEEE MMMM, d, y 'at' h:mma"
    else if (format =? "medium")%string then "EE MM, dd, y h:mma"
    else format in
  ok (babel_format_datetime date format "en")).
End Filters.

(** *** Queries shared by the controllers *)

(** [len([show for show in shows if show.start_time > datetime.now()])] *)
Definition count_upcoming (now : datetime) (l : list Show) : nat :=
  List.length (filter (fun show => gtb (show_start_time show) now) l).

(** [ORDER BY state, city]: the order of two rows. *)
Definition area_leb (a b : Venue) : bool :=
  match String.compare (venue_state a) (venue_state b) with
  | Lt => true
  | Gt => false
  | Eq => String.leb (venue_city a) (venue_city b)
  end.

Fixpoint insert_by_area (v : Venue) (l : list Venue) : list Venue :=
  match l with
  | [] => [v]
  | x :: rest => if area_leb v x then v :: l else x :: insert_by_area v rest
  end.

Definition order_by_state_city (l : list Venue) : list Venue :=
  fold_right insert_by_area [] l.

(** [DISTINCT ON (city, state)]: of the rows with the same city and
    state, the first one stays. *)
Definition same_area (a b : Venue) : bool :=
  ((venue_city a =? venue_city b) && (venue_state a =? venue_state b))%string.

Fixpoint distinct_on_area (l : list Venue) : list Venue :=
  match l with
  | [] => []
  | v :: rest => v :: filter (fun x => negb (same_area v x)) (distinct_on_area rest)
  end.

(** [query(M).filter(M.name.ilike(pattern)).all()] *)
Fixpoint filter_ilike {A} (name : A -> string) (pattern : string) (rows : list A)
    : result (list A) :=
  match rows with
  | [] => ok []
  | r :: rest =>
      match Text.ilike (name r) pattern with
      | None => raise DataError
      | Some keep =>
          rbind (filter_ilike name pattern rest) (fun l =>
          ok (if keep then r :: l else l))
      end
  end.

(** The loop of the two detail pages: each show becomes an item and
    goes to [past_shows] or to [upcoming_shows]. *)
Fixpoint classify {T} (item : Show -> result T) (now : datetime) (l : list Show)
    (past_shows upcoming_shows : list T) : result (list T * list T) :=
  match l with
  | [] => ok (past_shows, upcoming_shows)
  | show :: rest =>
      rbind (item show) (fun temp_show =>
      if leb (show_start_time show) now
      then classify item now rest (past_shows ++ [temp_show]) upcoming_shows
      else classify item now rest past_shows (upcoming_shows ++ [temp_show]))
  end.

(** Calling a value: none of the values of [Objects.Value] is
    callable. *)
Definition call (f : Value) : M Value := throw TypeError.

(** [db.session.get(Venue, key)] with the text of the URL as the key:
    the engine reads the text as an integer, or refuses it. *)
Definition session_get_venue_text (key : string) : M (option Venue) :=
  match Text.to_Z key with
  | Some id => session_get_venue id
  | None => throw DataError
  end.


(** The message of a failed validation:
    [for field, errors in form.errors.items(): for error in errors:
     message.append(f"{field}: {error}")]. *)
Definition error_messages (errs : FormErrors) : list string :=
  flat_map (fun fe => map (fun error => fst fe ++ ": " ++ error) (snd fe)) errs.

Definition errors_flash (errs : FormErrors) : string :=
  "Please fix the following errors: " ++ Text.join ", " (error_messages errs).

(** The body of the [try] block of the three create controllers:
    build the object from the form, add it, commit. *)
Definition persist_venue (form : VenueFields) : M unit :=
  let venue := mk_VenueObj (vf_name form) (vf_city form) (vf_state form)
                 (vf_address form) (vf_phone form) (vf_genres form)
                 (vf_facebook_link form) (vf_image_link form)
                 (vf_website_link form) (vf_seeking_talent form)
                 (vf_seeking_description form) in
  session_add (NewVenue venue) ;;
  session_commit.

Definition persist_artist (form : ArtistFields) : M unit :=
  let artist := mk_ArtistObj (af_name form) (af_city form) (af_state form)
                  (af_phone form) (af_genres form) (af_facebook_link form)
                  (af_image_link form) (af_website_link form)
                  (af_seeking_venue form) (af_seeking_description form) in
  session_add (NewArtist artist) ;;
  session_commit.

Definition persist_show (form : ShowFields) : M unit :=
  let show := mk_ShowObj (sf_artist_id form) (sf_venue_id form)
                (sf_start_time form) in
  session_add (NewShow show) ;;
  session_commit.

(** *** Controllers *)
Section Controllers.
(** [datetime.now()] during the request. *)
Variable now : datetime.
(** The form classes of [forms.py]. *)
Variable VenueForm : FormClass VenueFields.
Variable ArtistForm : FormClass ArtistFields.
Variable ShowForm : FormClass ShowFields.

(** [GET /venues] *)
Definition venues : M Response :=
  venues <- gets (fun w => Storage.venues (view w)) ;;
  areas <- gets (fun w => distinct_on_area (order_by_state_city (Storage.venues (view w)))) ;;
  st <- gets view ;;
  let data :=
    map (fun area =>
           mk_Area (venue_city area) (venue_state area)
             (map (fun venue =>
                     mk_Entry (venue_id_of venue) (venue_name venue)
                       (count_upcoming now (venue_shows st venue)))
                  (filter (fun venue =>
                             ((venue_city venue =? venue_city area)
                              && (venue_state venue =? venue_state area))%string)
                          venues)))
        areas in
  ret (Rendered "pages/venues.html" (AreasCtx data) 200).

(** [POST /venues/search] *)
Definition search_venues (form : FormData) : M Response :=
  let search_term := match form_get "search_term" form with Some t => t | None => "" end in
  st <- gets view ;;
  results <- lift (filter_ilike venue_name ("%" ++ search_term ++ "%") (Storage.venues st)) ;;
  let data :=
    map (fun result =>
           mk_Entry (venue_id_of result) (venue_name result)
             (List.length
                (filter (fun show => (show_venue_id show =? venue_id_of result)
                                     && gtb (show_start_time show) now)
                        (shows st))))
        results in
  let response := mk_SearchResults (List.length results) data in
  ret (Rendered "pages/search_venues.html"
         (SearchCtx response (match form_get "search_term" form with
                              | Some t => t | None => "" end)) 200).

(** The item of one show on the venue page. *)
Definition venue_temp_show (st : Store) (show : Show) : result VenueShow :=
  rbind (getattr st (VShow show) "Artist") (fun artist =>
  rbind (getattr st artist "name") (fun artist_name =>
  rbind (getattr st (VShow show) "Artist") (fun artist' =>
  rbind (getattr st artist' "image_link") (fun artist_image_link =>
  ok (mk_VenueShow (show_artist_id show) artist_name artist_image_link
        (strftime (show_start_time show))))))).

(** [GET /venues/<int:venue_id>] *)
Definition show_venue (venue_id : Z) : M Response :=
  venue <- session_get_venue venue_id ;;
  match venue with
  | None => ret (Rendered "errors/404.html" NoContext 200)
  | Some venue =>
      st <- gets view ;;
      lists <- lift (classify (venue_temp_show st) now (venue_shows st venue) [] []) ;;
      let past_shows := fst lists in
      let upcoming_shows := snd lists in
      let data := mk_VenueDetail venue past_shows upcoming_shows
                    (List.length past_shows) (List.length upcoming_shows) in
      ret (Rendered "pages/show_venue.html" (VenueCtx data) 200)
  end.

(** [POST /venues/create] *)
Definition create_venue_submission (request_form : FormData) : M Response :=
  let form := data VenueForm request_form in
  if validate VenueForm request_form then
    try_except_finally
      (persist_venue form)
      is_ValueError
      (fun e => session_rollback)
      session_close ;;
    name <- form_item "name" request_form ;;
    flash ("Venue " ++ name ++ " was successfully listed!") ;;
    ret (Rendered "pages/home.html" NoContext 200)
  else
    flash (errors_flash (errors VenueForm request_form)) ;;
    ret (Rendered "forms/new_venue.html" (FormCtx BlankVenueForm) 200).

(** [DELETE /venues/<venue_id>] *)
Definition delete_venue (venue_id : string) : M Response :=
  error <- try_except_finally
             (venue <- session_get_venue_text venue_id ;;
              st <- gets view ;;
              delete <- lift (getattr st (match venue with
                                          | Some v => VVenue v
                                          | None => VNone
                                          end) "delete") ;;
              call delete ;;
              session_commit ;;
              ret false)
             is_Exception
             (fun _ => session_rollback ;; ret true)
             session_close ;;
  (if error
   then flash ("An error occurred.  Venue " ++ venue_id ++ " could not be deleted.")
   else ret tt) ;;
  (if negb error
   then flash ("Venue " ++ venue_id ++ " was successfully deleted.")
   else ret tt) ;;
  ret (Rendered "pages/home.html" NoContext 200).

(** [POST /artists/search] *)
Definition search_artists (form : FormData) : M Response :=
  let search_term := match form_get "search_term" form with Some t => t | None => "" end in
  st <- gets view ;;
  results <- lift (filter_ilike artist_name ("%" ++ search_term ++ "%") (artists st)) ;;
  let data :=
    map (fun result =>
           mk_Entry (artist_id_of result) (artist_name result)
             (List.length
                (filter (fun show => (show_venue_id show =? artist_id_of result)
                                     && gtb (show_start_time show) now)
                        (shows st))))
        results in
  let response := mk_SearchResults (List.length results) data in
  ret (Rendered "pages/search_artists.html"
         (SearchCtx response (match form_get "search_term" form with
                              | Some t => t | None => "" end)) 200).

(** The item of one show on the artist page. *)
Definition artist_temp_show (st : Store) (show : Show) : result ArtistShow :=
  rbind (getattr st (VShow show) "Venue") (fun venue =>
  rbind (getattr st venue "name") (fun venue_name =>
  rbind (getattr st (VShow show) "Venue") (fun venue' =>
  rbind (getattr st venue' "image_link") (fun venue_image_link =>
  ok (mk_ArtistShow (show_venue_id show) venue_name venue_image_link
        (strftime (show_start_time show))))))).

(** [GET /artists/<int:artist_id>] *)
Definition show_artist (artist_id : Z) : M Response :=
  artist <- session_get_artist artist_id ;;
  match artist with
  | None => ret (Rendered "errors/404.html" NoContext 200)
  | Some artist =>
      st <- gets view ;;
      lists <- lift (classify (artist_temp_show st) now (artist_shows st artist) [] []) ;;
      let past_shows := fst lists in
      let upcoming_shows := snd lists in
      let data := mk_ArtistDetail artist past_shows upcoming_shows
                    (List.length past_shows) (List.length upcoming_shows) in
      ret (Rendered "pages/show_artist.html" (ArtistCtx data) 200)
  end.


(** [POST /artists/create] *)
Definition create_artist_submission (request_form : FormData) : M Response :=
  let form := data ArtistForm request_form in
  if validate ArtistForm request_form then
    try_except_finally
      (persist_artist form)
      is_ValueError
      (fun e => session_rollback)
      session_close ;;
    name <- form_item "name" request_form ;;
    flash ("Artist " ++ name ++ " was successfully listed!") ;;
    ret (Rendered "pages/home.html" NoContext 200)
  else
    flash (errors_flash (errors ArtistForm request_form)) ;;
    ret (Rendered "forms/new_artist.html" (FormCtx BlankArtistForm) 200).

(** [GET /shows] *)
Definition shows : M Response :=
  st <- gets view ;;
  let shows_query :=
    flat_map (fun show =>
                match get_venue st (show_venue_id show),
                      get_artist st (show_artist_id show) with
                | Some venue, Some artist => [(show, venue, artist)]
                | _, _ => []
                end) (Storage.shows st) in
  let data :=
    map (fun row =>
           match row with
           | (show, venue, artist) =>
               mk_ShowListing (show_venue_id show) (venue_name venue)
                 (show_artist_id show) (artist_name artist)
                 (artist_image_link artist) (strftime (show_start_time show))
           end) shows_query in
  ret (Rendered "pages/shows.html" (ShowsCtx data) 200).

(** [POST /shows/create] *)
Definition create_show_submission (request_form : FormData) : M Response :=
  let form := data ShowForm request_form in
  if validate ShowForm request_form then
    try_except_finally
      (persist_show form)
      is_ValueError
      (fun e => session_rollback)
      session_close ;;
    flash "Show was successfully listed!" ;;
    ret (Rendered "pages/home.html" NoContext 200)
  else
    flash (errors_flash (errors ShowForm request_form)) ;;
    ret (Rendered "forms/new_show.html" (FormCtx BlankShowForm) 200).

End Controllers.

(** *** The other edit controller and the listing of artists *)





(** [ORDER BY name] *)
Fixpoint insert_by_name (a : Artist) (l : list Artist) : list Artist :=
  match l with
  | [] => [a]
  | x :: rest =>
      if String.leb (artist_name a) (artist_name x) then a :: l
      else x :: insert_by_name a rest
  end.

Definition order_by_name (l : list Artist) : list Artist :=
  fold_right insert_by_name [] l.

(** [GET /artists]: the template and the rows handed to it as
    [artists]. *)
Definition artists : M (string * list Artist) :=
  data <- gets (fun w => order_by_name (Storage.artists (view w))) ;;
  ret ("pages/artists.html", data).

End App.

(* ------------------------------------------------------------------ *)
(** ** Forms *)
(* ------------------------------------------------------------------ *)
Module Forms.
Import Clock Web.

(** Modelled from the spec: [forms.py] (the classes [VenueForm],
    [ArtistForm] and [ShowForm]) is missing from the sources.  The
    rules are those of the field catalog of the specification; where
    it gives no wording for a message, the stock wording of the form
    library stands in, and a URL counts as well formed when it starts
    with [http://] or [https://] and holds no blank.  The controllers
    above take their form classes as arguments; these instances serve
    the examples. *)
Definition states : list string :=
  ["AL"; "AK"; "AZ"; "AR"; "CA"; "CO"; "CT"; "DE"; "DC"; "FL"; "GA"; "HI"; "ID";
   "IL"; "IN"; "IA"; "KS"; "KY"; "LA"; "ME"; "MT"; "NE"; "NV"; "NH"; "NJ"; "NM";
   "NY"; "NC"; "ND"; "OH"; "OK"; "OR"; "MD"; "MA"; "MI"; "MN"; "MS"; "MO"; "PA";
   "RI"; "SC"; "SD"; "TN"; "TX"; "UT"; "VT"; "VA"; "WA"; "WV"; "WI"; "WY"].

(** Modelled from the spec: the closed set of genre names of the field
    catalog. *)
Definition genres : list string :=
  ["Alternative"; "Blues"; "Classical"; "Country"; "Electronic"; "Folk"; "Funk";
   "Hip-Hop"; "Heavy Metal"; "Instrumental"; "Jazz"; "Musical Theatre"; "Pop";
   "Punk"; "R&B"; "Reggae"; "Rock n Roll"; "Soul"; "Other"].

(** Modelled from the spec: membership in a closed choice set. *)
Definition mem (x : string) (l : list string) : bool := existsb (String.eqb x) l.

(** Modelled from the spec: a decimal digit of the phone pattern. *)
Definition is_digit (c : ascii) : bool :=
  match Text.digit_of c with Some _ => true | None => false end.

(** Modelled from the spec: the phone pattern [###-###-####]. *)
Definition phone_ok (s : string) : bool :=
  match list_ascii_of_string s with
  | [a; b; c; d1; d; e; f; d2; g; h; i; j] =>
      forallb is_digit [a; b; c; d; e; f; g; h; i; j]
      && Ascii.eqb d1 "-" && Ascii.eqb d2 "-"
  | _ => false
  end.

(** Modelled from the spec: a syntactically valid URL, read as a text
    that starts with [http://] or [https://] and holds no blank. *)
Definition url_ok (s : string) : bool :=
  (String.prefix "http://" s || String.prefix "https://" s)
  && negb (existsb (Ascii.eqb " ") (list_ascii_of_string s)).

(** Modelled from the spec: a required, non-empty text field. *)
Definition required (v : option string) : list string :=
  match v with
  | Some EmptyString | None => ["This field is required."]
  | Some _ => []
  end.

(** Modelled from the spec: an optional field that is checked when it
    is present. *)
Definition optional (check : string -> bool) (message : string) (v : option string)
    : list string :=
  match v with
  | Some EmptyString | None => []
  | Some s => if check s then [] else [message]
  end.

(** Modelled from the spec: a required single choice. *)
Definition one_of (choices : list string) (v : option string) : list string :=
  match v with
  | Some EmptyString | None => ["This field is required."]
  | Some s => if mem s choices then [] else ["Not a valid choice."]
  end.

(** Modelled from the spec: a required multiple choice. *)
Definition all_of (choices : list string) (l : list string) : list string :=
  match l with
  | [] => ["This field is required."]
  | _ => if forallb (fun s => mem s choices) l then [] else ["Not a valid choice."]
  end.

(** Modelled from the spec: a field enters [form.errors] when it has a
    message. *)
Definition field (name : string) (messages : list string) : FormErrors :=
  match messages with
  | [] => []
  | _ => [(name, messages)]
  end.

(** Modelled from the spec: [validate()] succeeds when no field has a
    message. *)
Definition no_errors (e : FormErrors) : bool :=
  match e with [] => true | _ => false end.

(** Modelled from the spec: the rules of [VenueForm]. *)
Definition venue_errors (f : FormData) : FormErrors :=
  (field "name" (required (form_get "name" f))
  ++ field "city" (required (form_get "city" f))
  ++ field "state" (one_of states (form_get "state" f))
  ++ field "address" (required (form_get "address" f))
  ++ field "phone" (optional phone_ok "Invalid phone number." (form_get "phone" f))
  ++ field "website_link" (optional url_ok "Invalid URL." (form_get "website_link" f))
  ++ field "facebook_link" (optional url_ok "Invalid URL." (form_get "facebook_link" f))
  ++ field "image_link" (optional url_ok "Invalid URL." (form_get "image_link" f))
  ++ field "genres" (all_of genres (form_getlist "genres" f)))%list.

(** Modelled from the spec: the typed values of the fields of
    [VenueForm]; a checkbox is true when its key is submitted. *)
Definition venue_data (f : FormData) : VenueFields :=
  mk_VenueFields (form_get "name" f) (form_get "city" f) (form_get "state" f)
    (form_get "address" f) (form_get "phone" f) (form_getlist "genres" f)
    (form_get "facebook_link" f) (form_get "image_link" f)
    (form_get "website_link" f) (form_mem "seeking_talent" f)
    (form_get "seeking_description" f).

(** Modelled from the spec: [VenueForm]. *)
Definition VenueForm : FormClass VenueFields :=
  mk_FormClass (fun f => no_errors (venue_errors f)) venue_errors venue_data.

(** Modelled from the spec: the rules of [ArtistForm] (no address). *)
Definition artist_errors (f : FormData) : FormErrors :=
  (field "name" (required (form_get "name" f))
  ++ field "city" (required (form_get "city" f))
  ++ field "state" (one_of states (form_get "state" f))
  ++ field "phone" (optional phone_ok "Invalid phone number." (form_get "phone" f))
  ++ field "website_link" (optional url_ok "Invalid URL." (form_get "website_link" f))
  ++ field "facebook_link" (optional url_ok "Invalid URL." (form_get "facebook_link" f))
  ++ field "image_link" (optional url_ok "Invalid URL." (form_get "image_link" f))
  ++ field "genres" (all_of genres (form_getlist "genres" f)))%list.

(** Modelled from the spec: the typed values of the fields of
    [ArtistForm]. *)
Definition artist_data (f : FormData) : ArtistFields :=
  mk_ArtistFields (form_get "name" f) (form_get "city" f) (form_get "state" f)
    (form_get "phone" f) (form_getlist "genres" f)
    (form_get "facebook_link" f) (form_get "image_link" f)
    (form_get "website_link" f) (form_mem "seeking_venue" f)
    (form_get "seeking_description" f).

(** Modelled from the spec: [ArtistForm]. *)
Definition ArtistForm : FormClass ArtistFields :=
  mk_FormClass (fun f => no_errors (artist_errors f)) artist_errors artist_data.

(** Modelled from the spec: the value of an integer field. *)
Definition integer_data (v : option string) : option Z :=
  match v with
  | Some s => Text.to_Z s
  | None => None
  end.

(** Modelled from the spec: the number written by a run of digits. *)
Definition number (l : list ascii) : option nat :=
  option_map Z.to_nat (Text.digits 0 (string_of_list_ascii l)).

(** Modelled from the spec: the value of a datetime field, written
    [YYYY-MM-DD HH:MM:SS]. *)
Definition datetime_data (v : option string) : option datetime :=
  match v with
  | None => None
  | Some s =>
      match list_ascii_of_string s with
      | [y1; y2; y3; y4; p; m1; m2; q; d1; d2; b; h1; h2; r; i1; i2; t; s1; s2] =>
          if Ascii.eqb p "-" && Ascii.eqb q "-" && Ascii.eqb b " "
             && Ascii.eqb r ":" && Ascii.eqb t ":"
          then
            match number [y1; y2; y3; y4], number [m1; m2], number [d1; d2],
                  number [h1; h2], number [i1; i2], number [s1; s2] with
            | Some y, Some m, Some d, Some h, Some i, Some sec =>
                if ((1 <=? m) && (m <=? 12) && (1 <=? d) && (d <=? 31)
                    && (h <? 24) && (i <? 60) && (sec <? 60))%nat
                then Some (mk_datetime y m d h i sec 0)
                else None
            | _, _, _, _, _, _ => None
            end
          else None
      | _ => None
      end
  end.

(** Modelled from the spec: a required integer field. *)
Definition integer_errors (v : option string) : list string :=
  match v with
  | Some EmptyString | None => ["This field is required."]
  | Some s => match Text.to_Z s with
              | Some _ => []
              | None => ["Not a valid integer value."]
              end
  end.

(** Modelled from the spec: a required datetime field. *)
Definition datetime_errors (v : option string) : list string :=
  match v with
  | Some EmptyString | None => ["This field is required."]
  | Some _ => match datetime_data v with
              | Some _ => []
              | None => ["Not a valid datetime value."]
              end
  end.

(** Modelled from the spec: the rules of [ShowForm]. *)
Definition show_errors (f : FormData) : FormErrors :=
  (field "artist_id" (integer_errors (form_get "artist_id" f))
  ++ field "venue_id" (integer_errors (form_get "venue_id" f))
  ++ field "start_time" (datetime_errors (form_get "start_time" f)))%list.

(** Modelled from the spec: the typed values of the fields of
    [ShowForm]. *)
Definition show_data (f : FormData) : ShowFields :=
  mk_ShowFields (integer_data (form_get "artist_id" f))
    (integer_data (form_get "venue_id" f))
    (datetime_data (form_get "start_time" f)).

(** Modelled from the spec: [ShowForm]. *)
Definition ShowForm : FormClass ShowFields :=
  mk_FormClass (fun f => no_errors (show_errors f)) show_errors show_data.

End Forms.

(* ------------------------------------------------------------------ *)
(** ** Areas: the words of the listing of venues *)
(* ------------------------------------------------------------------ *)
Module Areas.
Import Models Web.




End Areas.

(* ------------------------------------------------------------------ *)
(** ** Matching: the words of the searches and of the listings *)
(* ------------------------------------------------------------------ *)
Module Matching.
Import Models Storage Web.










End Matching.

(* ------------------------------------------------------------------ *)
(** ** Frames: what a request leaves alone *)
(* ------------------------------------------------------------------ *)
Module Frames.
Import Models Storage Web.




End Frames.

(* ------------------------------------------------------------------ *)
(** ** Sample data for the examples *)
(* ------------------------------------------------------------------ *)
Module Sample.
Import Clock Models Storage Web.

Definition now : datetime := mk_datetime 2026 11 5 12 0 0 0.

Definition musical_hop : Venue :=
  mk_Venue 1 "The Musical Hop" ["Jazz"; "Folk"] "1015 Folsom Street"
    "San Francisco" "CA" (Some "123-123-1234") (Some "https://www.themusicalhop.com")
    None true (Some "We are on the lookout for a local artist.") None.

Definition dueling_pianos : Venue :=
  mk_Venue 2 "The Dueling Pianos Bar" ["Classical"; "R&B"] "335 Delancey Street"
    "New York" "NY" (Some "914-003-1132") None None false None None.

Definition park_square : Venue :=
  mk_Venue 3 "Park Square Live Music & Coffee" ["Rock n Roll"; "Jazz"]
    "34 Whiskey Moore Ave" "San Francisco" "CA" (Some "415-000-1234") None None
    false None None.

Definition guns_n_petals : Artist :=
  mk_Artist 1 "Guns N Petals" ["Rock n Roll"] "San Francisco" "CA"
    (Some "326-123-5000") None None true None None.

Definition matt_quevedo : Artist :=
  mk_Artist 2 "Matt Quevedo" ["Jazz"] "New York" "NY"
    (Some "300-400-5000") None None false None None.

(** One show in the past, two to come. *)
Definition show_2019 : Show := mk_Show 1 1 1 (mk_datetime 2019 5 21 21 30 0 0).
Definition show_2035a : Show := mk_Show 2 1 2 (mk_datetime 2035 4 1 20 0 0 0).
Definition show_2035b : Show := mk_Show 3 3 2 (mk_datetime 2035 4 8 20 0 0 0).

Definition store : Store :=
  mk_Store [musical_hop; dueling_pianos; park_square]
    [guns_n_petals; matt_quevedo]
    [show_2019; show_2035a; show_2035b].

Definition seqs : Sequences := mk_Sequences 4 3 4.






(** A show for an artist that is not stored. *)
Definition show_of_unknown_artist : FormData :=
  [("artist_id", "99"); ("venue_id", "1"); ("start_time", "2035-04-01 20:00:00")].







End Sample.

(* ------------------------------------------------------------------ *)
(** ** Properties of the filter and the controllers *)
(* ------------------------------------------------------------------ *)
Import Clock Models Storage Py Objects Web Session.

(** Unfolding the request monad on a given world. *)
Ltac run_request :=
  unfold run, start, try_except_finally, flash, form_item, session_rollback,
    session_close, session_add, session_get_venue, session_get_artist;
  unfold bind, ret, throw, lift, gets, modify, log, ok, raise;
  cbn [fst snd committed sequences view added flashes calls
       out_store out_sequences out_flashes out_calls out_response].

(** *** The datetime filter *)

(** C6, as the specification has it, fails: with a selector that is
    neither ["full"] nor ["medium"] the filter does not use the medium
    pattern.  Here the formatter returns the pattern it is given. *)
Lemma format_datetime_unrecognized_selector :
  App.format_datetime (fun v : string => ok v) (fun _ pattern _ => pattern)
    "2019-01-01 20:00" (Some "short")
  <> ok "EE MM, dd, y h:mma".
Proof. cbv. discriminate. Qed.

(** C6, amended: for every textual timestamp, the filter formats in
    locale ["en"] with the pattern [EEEE MMMM, d, y 'at' h:mma] for the
    selector ["full"], with [EE MM, dd, y h:mma] for the selector
    ["medium"] and for an absent selector, and with the selector itself
    as the pattern for any other selector; when the timestamp does not
    parse, the fault of the parser is the result. *)
Theorem format_datetime_patterns :
  forall (Date : Type) (parse : string -> result Date)
         (babel : Date -> string -> string -> string)
         (value selector : string),
    (selector =? "full")%string = false ->
    (selector =? "medium")%string = false ->
    App.format_datetime parse babel value (Some "full")
      = rbind (parse value) (fun d => ok (babel d "EEEE MMMM, d, y 'at' h:mma" "en"))
    /\ App.format_datetime parse babel value (Some "medium")
      = rbind (parse value) (fun d => ok (babel d "EE MM, dd, y h:mma" "en"))
    /\ App.format_datetime parse babel value None
      = rbind (parse value) (fun d => ok (babel d "EE MM, dd, y h:mma" "en"))
    /\ App.format_datetime parse babel value (Some selector)
      = rbind (parse value) (fun d => ok (babel d selector "en")).
Proof.
  intros Date parse babel value selector Hfull Hmedium.
  unfold App.format_datetime.
  repeat split; try reflexivity.
  rewrite Hfull, Hmedium. reflexivity.
Qed.

Lemma format_datetime_patterns_witness :
  App.format_datetime (fun v : string => ok v) (fun d pattern _ => d ++ "|" ++ pattern)
    "2019-01-01 20:00" (Some "short")
  = ok "2019-01-01 20:00|short".
Proof.
  pose proof (format_datetime_patterns (fun v : string => ok v)
                (fun d pattern _ => d ++ "|" ++ pattern)
                "2019-01-01 20:00" "short" eq_refl eq_refl) as H.
  destruct H as (_ & _ & _ & H). rewrite H. reflexivity.
Defined.

(** *** Deleting a venue *)

(** C4: whatever the id in the URL and whatever is stored, deleting a
    venue ends in the error branch.  Neither a [Venue] nor [None] has an
    attribute [delete]; the controller rolls back, closes the session,
    flashes the failure message and renders the home page, and the rows
    and the sequences are what they were. *)
Theorem delete_venue_always_fails :
  forall (st : Store) (sq : Sequences) (venue_id : string),
    (forall v, getattr st (VVenue v) "delete" = raise AttributeError)
    /\ getattr st VNone "delete" = raise AttributeError
    /\ run (App.delete_venue venue_id) st sq
       = mk_Outcome st sq
           ["An error occurred.  Venue " ++ venue_id ++ " could not be deleted."]
           [CallRollback; CallClose]
           (Rendered "pages/home.html" NoContext 200).
Proof.
  intros st sq venue_id.
  split; [reflexivity | split; [reflexivity |]].
  unfold App.delete_venue, App.session_get_venue_text, session_get_venue.
  run_request.
  destruct (Text.to_Z venue_id) as [id |]; run_request; [| reflexivity].
  destruct (get_venue st id); reflexivity.
Qed.

(** *** Failed validation *)



(** *** What a commit that raises leaves behind *)


(** *** A value error while a new venue is stored *)



(** *** The detail pages *)


(** In the sample, venue 1 and artist 2 have shows and venue 2 has
    none. *)
Example detail_pages_of_sample :
  out_response (run (App.show_venue Sample.now 1) Sample.store Sample.seqs)
  = Rendered "errors/500.html" NoContext 500
  /\ out_response (run (App.show_venue Sample.now 2) Sample.store Sample.seqs)
     = Rendered "pages/show_venue.html"
         (VenueCtx (mk_VenueDetail Sample.dueling_pianos [] [] 0 0)) 200
  /\ out_response (run (App.show_artist Sample.now 2) Sample.store Sample.seqs)
     = Rendered "errors/500.html" NoContext 500.
Proof. repeat split. Qed.

(** C2 fails on the code: the venue of the sample has one show in the
    past and one to come, and its detail page is not rendered with one
    show in each list: reading [show.Artist] raises, and the response
    is the 500 page. *)
Theorem show_venue_past_and_upcoming_faults :
  venue_shows Sample.store Sample.musical_hop = [Sample.show_2019; Sample.show_2035a]
  /\ leb (show_start_time Sample.show_2019) Sample.now = true
  /\ gtb (show_start_time Sample.show_2035a) Sample.now = true
  /\ fst (App.show_venue Sample.now 1 (start Sample.store Sample.seqs))
     = raise AttributeError
  /\ out_response (run (App.show_venue Sample.now 1) Sample.store Sample.seqs)
     = Rendered "errors/500.html" NoContext 500.
Proof. repeat split. Qed.

(** *** Searching artists *)

(** What [search_artists] reports for each artist: the number of shows
    to come whose [venue_id] is the id of the artist. *)
Lemma search_artists_reports :
  forall (now : datetime) (st : Store) (sq : Sequences) (form : FormData)
         (results : list Artist),
    App.filter_ilike artist_name
      ("%" ++ match form_get "search_term" form with Some t => t | None => "" end ++ "%")
      (artists st) = ok results ->
    exists term,
      out_response (run (App.search_artists now form) st sq)
      = Rendered "pages/search_artists.html"
          (SearchCtx
             (mk_SearchResults (List.length results)
                (map (fun a =>
                        mk_Entry (artist_id_of a) (artist_name a)
                          (List.length
                             (filter (fun s => (show_venue_id s =? artist_id_of a)
                                               && gtb (show_start_time s) now)
                                     (shows st))))
                     results))
             term) 200.
Proof.
  intros now st sq form results H.
  unfold App.search_artists. run_request. rewrite H. eexists. reflexivity.
Qed.

(** C1 fails on the code: in the sample, artist 1 has no show to come
    and artist 2 has two, yet the search reports 1 and 0, the numbers of
    shows to come at the venues with ids 1 and 2. *)
Theorem search_artists_counts_by_venue_id :
  App.count_upcoming Sample.now (artist_shows Sample.store Sample.guns_n_petals) = 0%nat
  /\ App.count_upcoming Sample.now (artist_shows Sample.store Sample.matt_quevedo) = 2%nat
  /\ out_response (run (App.search_artists Sample.now [("search_term", "t")])
                     Sample.store Sample.seqs)
     = Rendered "pages/search_artists.html"
         (SearchCtx
            (mk_SearchResults 2
               [mk_Entry 1 "Guns N Petals" 1; mk_Entry 2 "Matt Quevedo" 0])
            "t") 200
  /\ out_response (run (App.search_venues Sample.now [("search_term", "t")])
                     Sample.store Sample.seqs)
     = Rendered "pages/search_venues.html"
         (SearchCtx
            (mk_SearchResults 2
               [mk_Entry 1 "The Musical Hop" 1; mk_Entry 2 "The Dueling Pianos Bar" 0])
            "t") 200.
Proof. repeat split. Qed.

(** *** Listing the venues by area *)






















(** Two venues in San Francisco, CA and one in New York, NY: two areas,
    the first with the two venues. *)
Example venues_of_sample :
  out_response (run (App.venues Sample.now) Sample.store Sample.seqs)
  = Rendered "pages/venues.html"
      (AreasCtx
         [mk_Area "San Francisco" "CA"
            [mk_Entry 1 "The Musical Hop" 1;
             mk_Entry 3 "Park Square Live Music & Coffee" 1];
          mk_Area "New York" "NY" [mk_Entry 2 "The Dueling Pianos Bar" 0]])
      200.
Proof. reflexivity. Qed.

(** *** What the unit of work finds changed *)

Lemma changed_same :
  forall (A : Type) (eq_dec : forall a b : A, {a = b} + {a <> b}) (l : list A),
    changed eq_dec l l = [].
Proof.
  intros A eq_dec l. unfold changed. induction l as [| a l IH]; cbn; [reflexivity |].
  destruct (eq_dec a a) as [_ | Hne]; [exact IH | contradiction].
Qed.

Lemma flush_updates_clean :
  forall w, view w = committed w -> flush_updates w = ok tt.
Proof.
  intros w H. unfold flush_updates, changed_venues, changed_artists.
  rewrite H, changed_same. cbn [check_all rbind ok]. rewrite changed_same. reflexivity.
Qed.






(** *** A show that refers to a missing row *)

(** What [create_show_submission] does with a validated show whose
    venue or artist is not stored: the commit raises [IntegrityError],
    which [except ValueError] does not catch; the session is closed,
    there is no rollback call and no flash, and the 500 handler
    answers.  No row is stored; the sequence has moved on. *)
Lemma create_show_dangling_reference :
  forall (ShowForm : FormClass ShowFields) (st : Store) (sq : Sequences)
         (request_form : FormData) (aid vid : Z) (t : datetime),
    validate ShowForm request_form = true ->
    sf_artist_id (data ShowForm request_form) = Some aid ->
    sf_venue_id (data ShowForm request_form) = Some vid ->
    sf_start_time (data ShowForm request_form) = Some t ->
    get_venue st vid = None \/ get_artist st aid = None ->
    run (App.create_show_submission ShowForm request_form) st sq
    = mk_Outcome st
        (mk_Sequences (venues_id_seq sq) (artists_id_seq sq) (show_id_seq sq + 1))
        [] [CallAdd; CallCommit; CallClose]
        (Rendered "errors/500.html" NoContext 500).
Proof.
  intros ShowForm st sq request_form aid vid t Hvalid Ha Hv Ht Hmissing.
  unfold App.create_show_submission. rewrite Hvalid. cbv zeta.
  unfold App.persist_show, session_commit. run_request.
  rewrite flush_updates_clean by reflexivity.
  rewrite Ha, Hv, Ht.
  cbn [app flush_inserts insert].
  unfold show_row, not_null, rbind, ok, raise.
  cbn [so_artist_id so_venue_id so_start_time].
  destruct Hmissing as [H | H]; rewrite H.
  - reflexivity.
  - destruct (get_venue st vid); reflexivity.
Qed.

(** C8 fails on the code: a show for artist 99, who is not stored,
    passes validation; the commit raises the referential-integrity
    fault, and the controller does not catch it: there is no rollback
    call and no flash, and the response is the 500 page.  The show is
    not stored, and the listing of shows is what it was. *)
Theorem create_show_unknown_artist_escapes :
  let o := run (App.create_show_submission Forms.ShowForm Sample.show_of_unknown_artist)
             Sample.store Sample.seqs in
  validate Forms.ShowForm Sample.show_of_unknown_artist = true
  /\ get_artist Sample.store 99 = None
  /\ fst (App.create_show_submission Forms.ShowForm Sample.show_of_unknown_artist
            (start Sample.store Sample.seqs)) = raise IntegrityError
  /\ out_calls o = [CallAdd; CallCommit; CallClose]
  /\ out_flashes o = []
  /\ out_response o = Rendered "errors/500.html" NoContext 500
  /\ out_store o = Sample.store
  /\ out_response (run App.shows (out_store o) (out_sequences o))
     = out_response (run App.shows Sample.store Sample.seqs).
Proof. repeat split. Qed.

(** *** Editing an artist *)




Lemma try_except_finally_returns :
  forall (A : Type) (body : M A) (catches : Exn -> bool) (handler : Exn -> M A)
         (final : M unit) (w w1 w2 : World) (a : A),
    body w = (inr a, w1) ->
    final w1 = (inr tt, w2) ->
    try_except_finally body catches handler final w = (inr a, w2).
Proof.
  intros A body catches handler final w w1 w2 a Hb Hf.
  unfold try_except_finally. rewrite Hb, Hf. reflexivity.
Qed.

Lemma try_except_finally_caught :
  forall (A : Type) (body : M A) (catches : Exn -> bool) (handler : Exn -> M A)
         (final : M unit) (w w1 w2 w3 : World) (e : Exn) (r : result A),
    body w = (inl e, w1) ->
    catches e = true ->
    handler e w1 = (r, w2) ->
    final w2 = (inr tt, w3) ->
    try_except_finally body catches handler final w = (r, w3).
Proof.
  intros A body catches handler final w w1 w2 w3 e r Hb Hc Hh Hf.
  unfold try_except_finally. rewrite Hb, Hc, Hh, Hf. destruct r; reflexivity.
Qed.







(* ------------------------------------------------------------------ *)
(** ** Further properties *)
(* ------------------------------------------------------------------ *)

(** *** Searching by name *)


















(** *** The listing of shows *)


(** *** Creating rows *)













(** *** Edits that fail *)






(** *** Editing a venue *)















(** *** The listing of artists *)




(** *** Every venue is listed once *)






(** *** The session is closed *)



(** *** Submitting an edit twice *)









(** *** The empty search term *)




(** *** What the edits leave alone *)





















(** *** What the creates leave alone *)

(** Whatever the submission, a create controller changes no stored row
    and removes none: the table of its model is what it was, or what
    it was followed by one new row, and the other two tables are what
    they were. *)
Theorem creates_only_append :
  forall (VenueForm : FormClass VenueFields) (ArtistForm : FormClass ArtistFields)
         (ShowForm : FormClass ShowFields)
         (st : Store) (sq : Sequences) (request_form : FormData),
    let ov := run (App.create_venue_submission VenueForm request_form) st sq in
    let oa := run (App.create_artist_submission ArtistForm request_form) st sq in
    let os := run (App.create_show_submission ShowForm request_form) st sq in
    (artists (out_store ov) = artists st /\ shows (out_store ov) = shows st
     /\ (venues (out_store ov) = venues st
         \/ exists row, venues (out_store ov) = (venues st ++ [row])%list))
    /\ (venues (out_store oa) = venues st /\ shows (out_store oa) = shows st
        /\ (artists (out_store oa) = artists st
            \/ exists row, artists (out_store oa) = (artists st ++ [row])%list))
    /\ (venues (out_store os) = venues st /\ artists (out_store os) = artists st
        /\ (shows (out_store os) = shows st
            \/ exists row, shows (out_store os) = (shows st ++ [row])%list)).
Proof.
  intros VenueForm ArtistForm ShowForm st sq request_form. cbv zeta.
  split; [| split].
  - unfold App.create_venue_submission.
    destruct (validate VenueForm request_form); [| cbn; auto].
    cbv zeta. unfold App.persist_venue, session_commit. run_request.
    rewrite flush_updates_clean by reflexivity.
    cbn [app flush_inserts insert].
    destruct (existsb _ _).
    + destruct (form_get "name" request_form); cbn; auto.
    + destruct (venue_row _ _) as [e | row]; cbn [rbind].
      * destruct e; destruct (form_get "name" request_form); cbn; auto.
      * destruct (form_get "name" request_form); cbn; eauto.
  - unfold App.create_artist_submission.
    destruct (validate ArtistForm request_form); [| cbn; auto].
    cbv zeta. unfold App.persist_artist, session_commit. run_request.
    rewrite flush_updates_clean by reflexivity.
    cbn [app flush_inserts insert].
    destruct (existsb _ _).
    + destruct (form_get "name" request_form); cbn; auto.
    + destruct (artist_row _ _) as [e | row]; cbn [rbind].
      * destruct e; destruct (form_get "name" request_form); cbn; auto.
      * destruct (form_get "name" request_form); cbn; eauto.
  - unfold App.create_show_submission.
    destruct (validate ShowForm request_form); [| cbn; auto].
    cbv zeta. unfold App.persist_show, session_commit. run_request.
    rewrite flush_updates_clean by reflexivity.
    cbn [app flush_inserts insert].
    destruct (show_row _ _ _) as [e | row]; cbn [rbind].
    + destruct e; cbn; auto.
    + cbn; eauto.
Qed.

(** *** A value error while a new artist is stored *)



(** *** The pages that only read *)

(** The two detail pages write nothing, flash nothing and make no call
    on the session, whether they render the page, the 404 template, or
    end in a fault. *)
Theorem detail_pages_only_read :
  forall (now : datetime) (st : Store) (sq : Sequences) (id : Z),
    let ov := run (App.show_venue now id) st sq in
    let oa := run (App.show_artist now id) st sq in
    (out_store ov = st /\ out_sequences ov = sq
     /\ out_flashes ov = [] /\ out_calls ov = [])
    /\ (out_store oa = st /\ out_sequences oa = sq
        /\ out_flashes oa = [] /\ out_calls oa = []).
Proof.
  intros now st sq id. cbv zeta.
  unfold App.show_venue, App.show_artist. run_request.
  destruct (get_venue st id) as [v |]; destruct (get_artist st id) as [a |];
    cbn [view];
    try destruct (App.classify _ _ (venue_shows st v) _ _) as [e1 | l1];
    try destruct (App.classify _ _ (artist_shows st a) _ _) as [e2 | l2];
    repeat split.
Qed.
